(** * dragonfly/world/provider.go: the world Provider and its no-I/O backend

    A shallow embedding of the [Provider] interface and of [NoIOProvider],
    the implementation that performs no disk I/O, followed by the
    properties of the provider that the world relies on. *)

From Stdlib Require Import ZArith String List Bool Lia.
Import ListNotations.
Open Scope Z_scope.

(** ** Go values used by the provider *)

(** A Go pointer [*T] is either nil or refers to a value: [None] is the nil
    pointer. *)
Definition ptr (A : Type) : Type := option A.

(** A Go [error] is either nil ([None]) or a non-nil error, kept here by its
    message. *)
Definition error : Type := option string.

(** Go's [int64], carried by [Z]; the provider does no arithmetic on it. *)
Definition int64 : Type := Z.

(** Modelled from the spec: [ChunkPos] is declared elsewhere in package
    world; it is the integer pair (x, z) that identifies a chunk column. *)
Record ChunkPos : Set := mkChunkPos { chunk_x : Z; chunk_z : Z }.

(** Modelled from the spec: [BlockPos] is declared elsewhere in package
    world; it is a 3D integer point, written [BlockPos{x, y, z}] in the
    source. *)
Record BlockPos : Set := mkBlockPos { pos_x : Z; pos_y : Z; pos_z : Z }.

(** Modelled from the spec: package gamemode is not part of this file; the
    game mode is a closed enumeration of variants, of which the source names
    [gamemode.Adventure]. *)
Module gamemode.
Inductive GameMode : Set := Survival | Creative | Adventure | Spectator.
End gamemode.

(** ** NoIOProvider

    [type NoIOProvider struct{}]: a struct without fields.  Every method has
    a value receiver [(p NoIOProvider)].  The chunk and entity types are
    opaque to the provider and stay parameters. *)
Module NoIOProvider.

Record t : Set := mk {}.

Definition DefaultGameMode (p : t) : gamemode.GameMode := gamemode.Adventure.

Definition SetDefaultGameMode (p : t) (mode : gamemode.GameMode) : unit := tt.

Definition SetWorldSpawn (p : t) (pos : BlockPos) : unit := tt.

Definition SaveTimeCycle (p : t) (running : bool) : unit := tt.

Definition LoadTimeCycle (p : t) : bool := true.

Definition LoadTime (p : t) : int64 := 0.

Definition SaveTime (p : t) (time : int64) : unit := tt.

(** [return nil, nil]: the nil slice is the slice of length 0. *)
Definition LoadEntities {Entity : Type} (p : t) (position : ChunkPos)
  : list Entity * error := ([], None).

Definition SaveEntities {Entity : Type} (p : t) (position : ChunkPos)
    (entities : list Entity) : error := None.

Definition SaveChunk {Chunk : Type} (p : t) (position : ChunkPos)
    (c : ptr Chunk) : error := None.

(** [return nil, false, nil] *)
Definition LoadChunk {Chunk : Type} (p : t) (position : ChunkPos)
  : ptr Chunk * bool * error := (None, false, None).

Definition WorldName (p : t) : string := EmptyString.

Definition SetWorldName (p : t) (name : string) : unit := tt.

Definition WorldSpawn (p : t) : BlockPos := mkBlockPos 0 30 0.

Definition Close (p : t) : error := None.

End NoIOProvider.

(** ** Calls on a provider, with the provider's state passed along

    A method of a provider of type [S] that answers with an [A] and leaves
    the provider in a possibly different state. *)
Definition Method (S A : Type) : Type := S -> A * S.

Definition ret {S A : Type} (a : A) : Method S A := fun s => (a, s).

Definition bind {S A B : Type} (m : Method S A) (k : A -> Method S B)
  : Method S B :=
  fun s => let (a, s') := m s in k a s'.

Declare Scope method_scope.
Delimit Scope method_scope with method.
Notation "x <- m ;; k" := (bind m (fun x => k))
  (at level 61, m at next level, right associativity) : method_scope.

(** What a call answers, and the provider it leaves behind. *)
Definition result {S A : Type} (m : Method S A) (s : S) : A := fst (m s).
Definition after {S A : Type} (m : Method S A) (s : S) : S := snd (m s).

(** A method with a value receiver works on a copy of the receiver: the
    caller's provider is what it was before the call. *)
Definition by_value {S A : Type} (f : S -> A) : Method S A :=
  fun s => (f s, s).

(** ** The Provider interface *)
Class Provider (Chunk Entity P : Type) : Type := {
  Close : Method P error;
  WorldName : Method P string;
  SetWorldName : string -> Method P unit;
  WorldSpawn : Method P BlockPos;
  SetWorldSpawn : BlockPos -> Method P unit;
  LoadChunk : ChunkPos -> Method P (ptr Chunk * bool * error);
  SaveChunk : ChunkPos -> ptr Chunk -> Method P error;
  LoadEntities : ChunkPos -> Method P (list Entity * error);
  SaveEntities : ChunkPos -> list Entity -> Method P error;
  LoadTime : Method P int64;
  SaveTime : int64 -> Method P unit;
  SaveTimeCycle : bool -> Method P unit;
  LoadTimeCycle : Method P bool;
  DefaultGameMode : Method P gamemode.GameMode;
  SetDefaultGameMode : gamemode.GameMode -> Method P unit
}.

(** [NoIOProvider] satisfies the interface with its value-receiver methods. *)
#[export] Instance NoIOProvider_Provider (Chunk Entity : Type)
  : Provider Chunk Entity NoIOProvider.t := {|
  Close := by_value NoIOProvider.Close;
  WorldName := by_value NoIOProvider.WorldName;
  SetWorldName name := by_value (fun p => NoIOProvider.SetWorldName p name);
  WorldSpawn := by_value NoIOProvider.WorldSpawn;
  SetWorldSpawn pos := by_value (fun p => NoIOProvider.SetWorldSpawn p pos);
  LoadChunk position := by_value (fun p => NoIOProvider.LoadChunk p position);
  SaveChunk position c :=
    by_value (fun p => NoIOProvider.SaveChunk p position c);
  LoadEntities position :=
    by_value (fun p => NoIOProvider.LoadEntities p position);
  SaveEntities position entities :=
    by_value (fun p => NoIOProvider.SaveEntities p position entities);
  LoadTime := by_value NoIOProvider.LoadTime;
  SaveTime time := by_value (fun p => NoIOProvider.SaveTime p time);
  SaveTimeCycle running :=
    by_value (fun p => NoIOProvider.SaveTimeCycle p running);
  LoadTimeCycle := by_value NoIOProvider.LoadTimeCycle;
  DefaultGameMode := by_value NoIOProvider.DefaultGameMode;
  SetDefaultGameMode mode :=
    by_value (fun p => NoIOProvider.SetDefaultGameMode p mode)
|}.

(** ** Histories of calls

    One constructor per method of the interface, with its arguments, and the
    answer each one gives. *)
Inductive call (Chunk Entity : Type) : Type :=
| CallClose
| CallWorldName
| CallSetWorldName (name : string)
| CallWorldSpawn
| CallSetWorldSpawn (pos : BlockPos)
| CallLoadChunk (position : ChunkPos)
| CallSaveChunk (position : ChunkPos) (c : ptr Chunk)
| CallLoadEntities (position : ChunkPos)
| CallSaveEntities (position : ChunkPos) (entities : list Entity)
| CallLoadTime
| CallSaveTime (time : int64)
| CallSaveTimeCycle (running : bool)
| CallLoadTimeCycle
| CallDefaultGameMode
| CallSetDefaultGameMode (mode : gamemode.GameMode).

Arguments CallClose {Chunk Entity}.
Arguments CallWorldName {Chunk Entity}.
Arguments CallSetWorldName {Chunk Entity} name.
Arguments CallWorldSpawn {Chunk Entity}.
Arguments CallSetWorldSpawn {Chunk Entity} pos.
Arguments CallLoadChunk {Chunk Entity} position.
Arguments CallSaveChunk {Chunk Entity} position c.
Arguments CallLoadEntities {Chunk Entity} position.
Arguments CallSaveEntities {Chunk Entity} position entities.
Arguments CallLoadTime {Chunk Entity}.
Arguments CallSaveTime {Chunk Entity} time.
Arguments CallSaveTimeCycle {Chunk Entity} running.
Arguments CallLoadTimeCycle {Chunk Entity}.
Arguments CallDefaultGameMode {Chunk Entity}.
Arguments CallSetDefaultGameMode {Chunk Entity} mode.

Inductive reply (Chunk Entity : Type) : Type :=
| Done
| Failure (err : error)
| Name (name : string)
| Position (pos : BlockPos)
| LoadedChunk (c : ptr Chunk) (exists_ : bool) (err : error)
| LoadedEntities (entities : list Entity) (err : error)
| Time (time : int64)
| TimeCycle (running : bool)
| Mode (mode : gamemode.GameMode).

Arguments Done {Chunk Entity}.
Arguments Failure {Chunk Entity} err.
Arguments Name {Chunk Entity} name.
Arguments Position {Chunk Entity} pos.
Arguments LoadedChunk {Chunk Entity} c exists_ err.
Arguments LoadedEntities {Chunk Entity} entities err.
Arguments Time {Chunk Entity} time.
Arguments TimeCycle {Chunk Entity} running.
Arguments Mode {Chunk Entity} mode.

Section Histories.

Context {Chunk Entity P : Type} `{Provider Chunk Entity P}.

Local Open Scope method_scope.

(** Dispatch of one call through the interface. *)
Definition invoke (c : call Chunk Entity) : Method P (reply Chunk Entity) :=
  match c with
  | CallClose => err <- Close ;; ret (Failure err)
  | CallWorldName => name <- WorldName ;; ret (Name name)
  | CallSetWorldName name => _ <- SetWorldName name ;; ret Done
  | CallWorldSpawn => pos <- WorldSpawn ;; ret (Position pos)
  | CallSetWorldSpawn pos => _ <- SetWorldSpawn pos ;; ret Done
  | CallLoadChunk position =>
      r <- LoadChunk position ;;
      ret (let '(c, exists_, err) := r in LoadedChunk c exists_ err)
  | CallSaveChunk position c =>
      err <- SaveChunk position c ;; ret (Failure err)
  | CallLoadEntities position =>
      r <- LoadEntities position ;;
      ret (let '(entities, err) := r in LoadedEntities entities err)
  | CallSaveEntities position entities =>
      err <- SaveEntities position entities ;; ret (Failure err)
  | CallLoadTime => time <- LoadTime ;; ret (Time time)
  | CallSaveTime time => _ <- SaveTime time ;; ret Done
  | CallSaveTimeCycle running => _ <- SaveTimeCycle running ;; ret Done
  | CallLoadTimeCycle => running <- LoadTimeCycle ;; ret (TimeCycle running)
  | CallDefaultGameMode => mode <- DefaultGameMode ;; ret (Mode mode)
  | CallSetDefaultGameMode mode => _ <- SetDefaultGameMode mode ;; ret Done
  end.

(** The calls of a history, made one after the other on the same provider. *)
Fixpoint run (h : list (call Chunk Entity))
  : Method P (list (reply Chunk Entity)) :=
  match h with
  | [] => ret []
  | c :: h' => r <- invoke c ;; rs <- run h' ;; ret (r :: rs)
  end.

End Histories.

(** The operations that store something, and those that read it back. *)
Definition is_save {Chunk Entity : Type} (c : call Chunk Entity) : bool :=
  match c with
  | CallSaveChunk _ _ | CallSaveEntities _ _ | CallSaveTime _
  | CallSaveTimeCycle _ | CallSetWorldSpawn _ | CallSetWorldName _
  | CallSetDefaultGameMode _ => true
  | _ => false
  end.

Definition is_load {Chunk Entity : Type} (c : call Chunk Entity) : bool :=
  match c with
  | CallLoadChunk _ | CallLoadEntities _ | CallLoadTime | CallLoadTimeCycle
  | CallWorldSpawn | CallWorldName | CallDefaultGameMode => true
  | _ => false
  end.

(** ** The contract of [LoadChunk] and of the chunk round trip *)

(** The three outcomes the interface documents for [LoadChunk]. *)
Inductive load_state : Set := Found | NotFound | Corrupt.

Definition classify {Chunk : Type} (r : ptr Chunk * bool * error)
  : option load_state :=
  match r with
  | (Some _, true, None) => Some Found
  | (None, false, None) => Some NotFound
  | (None, true, Some _) => Some Corrupt
  | _ => None
  end.

Definition permitted {Chunk : Type} (r : ptr Chunk * bool * error) : Prop :=
  let '(c, exists_, err) := r in
  (c <> None /\ exists_ = true /\ err = None) \/
  (c = None /\ exists_ = false /\ err = None) \/
  (c = None /\ exists_ = true /\ err <> None).

(** Saving chunk [c] at [position] and loading that position again gives
    [c] back: the round trip a storing provider offers. *)
Definition chunk_roundtrip {Chunk Entity P : Type} `{Provider Chunk Entity P}
    (s : P) (position : ChunkPos) (c : Chunk) : Prop :=
  result (invoke (CallLoadChunk position))
         (after (invoke (CallSaveChunk position (Some c))) s)
  = LoadedChunk (Entity := Entity) (Some c) true None.

(** The answer of each load of the no-I/O backend: not-found for a chunk,
    no entities, and the fixed value of each piece of world data. *)
Definition NoIO_default {Chunk Entity : Type}
    (l : call Chunk Entity) (r : reply Chunk Entity) : Prop :=
  match l with
  | CallLoadChunk _ => r = LoadedChunk None false None
  | CallLoadEntities _ => r = LoadedEntities [] None
  | CallLoadTime => r = Time 0
  | CallLoadTimeCycle => r = TimeCycle true
  | CallWorldSpawn => r = Position (mkBlockPos 0 30 0)
  | CallWorldName => r = Name EmptyString
  | CallDefaultGameMode => r = Mode gamemode.Adventure
  | _ => False
  end.

(** Chunks and entities to run the provider on: chunks [A] and [B], entities
    [e1] and [e2]. *)
Module Scenario.
Inductive Chunk : Set := A | B.
Inductive Entity : Set := e1 | e2.
Definition origin : ChunkPos := mkChunkPos 0 0.
Definition far : ChunkPos := mkChunkPos 3 (-2).
End Scenario.

(** Whether an answer reports a failure: a non-nil error from [Close],
    [SaveChunk], [SaveEntities], [LoadChunk] or [LoadEntities].  The other
    methods of the interface return no error. *)
Definition failed {Chunk Entity : Type} (r : reply Chunk Entity) : bool :=
  match r with
  | Failure (Some _) | LoadedChunk _ _ (Some _) | LoadedEntities _ (Some _) =>
      true
  | _ => false
  end.

(** * The provider on concrete calls *)

Example load_far_never_saved :
  NoIOProvider.LoadChunk (Chunk := Scenario.Chunk) NoIOProvider.mk Scenario.far
  = (None, false, None).
Proof. reflexivity. Qed.

Example session_replies :
  result
    (run [ CallSetWorldName "overworld";
           CallSaveChunk Scenario.origin (Some Scenario.A);
           CallSaveEntities Scenario.origin [Scenario.e1; Scenario.e2];
           CallSetDefaultGameMode gamemode.Creative;
           CallSaveTime 6000;
           CallLoadChunk Scenario.origin;
           CallLoadEntities Scenario.origin;
           CallDefaultGameMode;
           CallLoadTime;
           CallWorldName;
           CallClose ])
    NoIOProvider.mk
  = [ Done; Failure None; Failure None; Done; Done;
      LoadedChunk None false None;
      LoadedEntities [] None;
      Mode gamemode.Adventure;
      Time 0;
      Name EmptyString;
      Failure None ].
Proof. reflexivity. Qed.

Example classify_found :
  classify (Some Scenario.A, true, None) = Some Found.
Proof. reflexivity. Qed.

Example classify_chunk_with_error :
  classify (Some Scenario.B, true, Some "corrupt"%string) = None.
Proof. reflexivity. Qed.

(** * Properties of the no-I/O provider *)

Section NoIO.

Context {Chunk Entity : Type}.

(** Calls and histories are those of the no-I/O provider throughout. *)
#[local] Abbreviation invoke :=
  (invoke (Chunk := Chunk) (Entity := Entity) (P := NoIOProvider.t)).
#[local] Abbreviation run :=
  (run (Chunk := Chunk) (Entity := Entity) (P := NoIOProvider.t)).

Implicit Types (p q : NoIOProvider.t) (position : ChunkPos).
Implicit Types (c : call Chunk Entity) (h : list (call Chunk Entity)).

(** The struct has no fields, so there is one provider value. *)
Lemma NoIOProvider_unique p q : p = q.
Proof. destruct p, q. reflexivity. Qed.

(** No call changes the provider. *)
Lemma invoke_after c p : after (invoke c) p = p.
Proof. destruct c; reflexivity. Qed.

Lemma run_after h p : after (run h) p = p.
Proof.
  induction h as [|c h IH]; [reflexivity|].
  unfold after in *. cbn [run]. unfold bind at 1.
  pose proof (invoke_after c p) as Hc. unfold after in Hc.
  destruct (invoke c p) as [r p1]. cbn [snd] in Hc. subst p1.
  unfold bind at 1. destruct (run h p) as [rs p2]. cbn [snd] in IH.
  subst p2. reflexivity.
Qed.

(** The answer to a call does not depend on the provider it is made on. *)
Lemma invoke_result c p q : result (invoke c) p = result (invoke c) q.
Proof. destruct c; reflexivity. Qed.

Lemma run_cons c h p :
  result (run (c :: h)) p
  = result (invoke c) p :: result (run h) (after (invoke c) p).
Proof.
  unfold result, after. cbn [run]. unfold bind at 1.
  destruct (invoke c p) as [r p1]. cbn [fst snd]. unfold bind at 1.
  destruct (run h p1) as [rs p2]. reflexivity.
Qed.

(** C1: for every chunk position, [NoIOProvider.LoadChunk] returns a nil
    chunk, exists = false and a nil error (not found), also on a provider
    on which chunks were saved at that position before, whatever they
    were and however many. *)
Theorem LoadChunk_not_found p position (saved : list (ptr Chunk)) :
  NoIOProvider.LoadChunk (Chunk := Chunk) p position = (None, false, None) /\
  result (invoke (CallLoadChunk position))
         (after (run (map (CallSaveChunk position) saved)) p)
  = LoadedChunk (Chunk := Chunk) (Entity := Entity) None false None.
Proof.
  split; [reflexivity|].
  rewrite run_after. reflexivity.
Qed.

(** C2: the result of [NoIOProvider.LoadChunk] is one of the three permitted
    states (non-nil chunk, exists, nil error; nil chunk, not exists, nil
    error; nil chunk, exists, non-nil error), and is never a non-nil chunk
    together with a non-nil error. *)
Theorem LoadChunk_permitted p position :
  let r := NoIOProvider.LoadChunk (Chunk := Chunk) p position in
  permitted r /\
  (exists st, classify r = Some st) /\
  ~ (fst (fst r) <> None /\ snd r <> None).
Proof.
  cbv zeta. unfold NoIOProvider.LoadChunk. repeat split.
  - right; left. repeat split.
  - exists NotFound. reflexivity.
  - cbn. intros [Hc _]. apply Hc. reflexivity.
Qed.

(** C3: on the no-I/O provider, a load made after any save operation
    ([SaveChunk], [SaveEntities], [SaveTime], [SaveTimeCycle],
    [SetWorldSpawn], [SetWorldName], [SetDefaultGameMode]) answers what it
    answers without the save, and that is its fixed default or not-found. *)
Theorem save_then_load c l p :
  is_save c = true -> is_load l = true ->
  result (invoke l) (after (invoke c) p) = result (invoke l) p /\
  NoIO_default l (result (invoke l) (after (invoke c) p)).
Proof.
  intros _ Hl. rewrite invoke_after. split; [reflexivity|].
  destruct l; cbn in Hl; try discriminate Hl; reflexivity.
Qed.

(** C4, as amended: for every chunk [c0] and position, [SaveChunk] on the
    no-I/O provider returns a nil error, and [LoadChunk] at that position
    afterwards returns a nil chunk, exists = false and a nil error. *)
Theorem SaveChunk_then_LoadChunk p position (c0 : Chunk) :
  result (invoke (CallSaveChunk position (Some c0))) p
  = Failure (Chunk := Chunk) (Entity := Entity) None /\
  result (invoke (CallLoadChunk position))
         (after (invoke (CallSaveChunk position (Some c0))) p)
  = LoadedChunk (Chunk := Chunk) (Entity := Entity) None false None.
Proof. split; reflexivity. Qed.

(** C5: [NoIOProvider.LoadEntities] returns an empty entity list and a nil
    error at every position, and [NoIOProvider.SaveEntities] returns a nil
    error for every position and entity list. *)
Theorem LoadEntities_SaveEntities p position (entities : list Entity) :
  NoIOProvider.LoadEntities (Entity := Entity) p position = ([], None) /\
  NoIOProvider.SaveEntities p position entities = None.
Proof. split; reflexivity. Qed.

(** C6: the metadata loads of the no-I/O provider give the fixed defaults:
    [LoadTimeCycle] is true, [LoadTime] is 0, [WorldSpawn] is one fixed
    position with y strictly above 0, [DefaultGameMode] is Adventure. *)
Theorem metadata_defaults p q :
  NoIOProvider.LoadTimeCycle p = true /\
  NoIOProvider.LoadTime p = 0 /\
  (0 < pos_y (NoIOProvider.WorldSpawn p) /\
   NoIOProvider.WorldSpawn p = NoIOProvider.WorldSpawn q) /\
  NoIOProvider.DefaultGameMode p = gamemode.Adventure.
Proof.
  unfold NoIOProvider.WorldSpawn. cbn [pos_y].
  repeat split.
Qed.

(** C7: [NoIOProvider.Close] returns a nil error, and so does each of any
    number of calls of it in a row. *)
Theorem Close_succeeds p (n : nat) :
  NoIOProvider.Close p = None /\
  result (run (repeat CallClose n)) p
  = repeat (Failure (Chunk := Chunk) (Entity := Entity) None) n.
Proof.
  split; [reflexivity|].
  induction n as [|n IH]; [reflexivity|].
  cbn [repeat]. rewrite run_cons, invoke_after, IH. reflexivity.
Qed.

(** C8: every operation of the no-I/O provider answers the same to the same
    call, whatever calls were made before it and in whatever order; the
    provider the two histories leave behind is the same one. *)
Theorem history_independent c h1 h2 p q :
  result (invoke c) (after (run h1) p) = result (invoke c) (after (run h2) q)
  /\ after (run h1) p = after (run h2) q.
Proof.
  rewrite !run_after. split.
  - apply invoke_result.
  - apply NoIOProvider_unique.
Qed.

(** C9: [NoIOProvider.WorldSpawn] returns the block position (0, 30, 0). *)
Theorem WorldSpawn_value p :
  NoIOProvider.WorldSpawn p = mkBlockPos 0 30 0 /\
  result (invoke CallWorldSpawn) p
  = Position (Chunk := Chunk) (Entity := Entity) (mkBlockPos 0 30 0).
Proof. split; reflexivity. Qed.

(** C10: [NoIOProvider.WorldName] returns the empty string, also after
    calls of [SetWorldName], whatever the names. *)
Theorem WorldName_empty p (names : list string) :
  NoIOProvider.WorldName p = EmptyString /\
  String.length (NoIOProvider.WorldName p) = 0%nat /\
  result (invoke CallWorldName)
         (after (run (map CallSetWorldName names)) p)
  = Name (Chunk := Chunk) (Entity := Entity) EmptyString.
Proof.
  split; [reflexivity|]. split; [reflexivity|].
  rewrite run_after. reflexivity.
Qed.

End NoIO.

(** C3 at work: chunk [A] saved at the origin, then the origin loaded. *)
Lemma save_then_load_witness :
  let save : call Scenario.Chunk Scenario.Entity :=
    CallSaveChunk Scenario.origin (Some Scenario.A) in
  let load : call Scenario.Chunk Scenario.Entity :=
    CallLoadChunk Scenario.origin in
  is_save save = true /\ is_load load = true /\
  result (invoke load) (after (invoke save) NoIOProvider.mk)
  = LoadedChunk None false None.
Proof.
  cbv zeta. split; [reflexivity|]. split; [reflexivity|].
  exact (proj2 (save_then_load
                  (CallSaveChunk Scenario.origin (Some Scenario.A))
                  (CallLoadChunk Scenario.origin) NoIOProvider.mk
                  eq_refl eq_refl)).
Defined.

(** C4 as stated fails: chunk [A] saved at the origin is not what
    [LoadChunk] at the origin returns afterwards. *)
Lemma chunk_roundtrip_fails :
  ~ chunk_roundtrip (Entity := Scenario.Entity)
      NoIOProvider.mk Scenario.origin Scenario.A.
Proof. unfold chunk_roundtrip. cbn. discriminate. Qed.

(** * What the no-I/O provider does with what it is given *)

Section Discarded.

Context {Chunk Entity : Type}.

#[local] Abbreviation invoke :=
  (invoke (Chunk := Chunk) (Entity := Entity) (P := NoIOProvider.t)).
#[local] Abbreviation run :=
  (run (Chunk := Chunk) (Entity := Entity) (P := NoIOProvider.t)).

Implicit Types (p : NoIOProvider.t) (position : ChunkPos).
Implicit Types (c : call Chunk Entity) (h : list (call Chunk Entity)).



(** X1: no call on the no-I/O provider fails: a history of any calls gets
    one answer per call, and none of them carries a non-nil error. *)
Theorem never_fails h p :
  length (result (run h) p) = length h /\
  Forall (fun r => failed r = false) (result (run h) p).
Proof.
  induction h as [|c h [IHlen IHall]].
  - split; [reflexivity | constructor].
  - rewrite run_cons, invoke_after. split.
    + cbn [length]. rewrite IHlen. reflexivity.
    + constructor; [destruct c; reflexivity | exact IHall].
Qed.

(** X2: entities saved at a position come back from [LoadEntities], at that
    position or any other, exactly when the saved list is empty. *)
Theorem entities_kept_iff_empty p position position' (entities : list Entity) :
  result (invoke (CallLoadEntities position'))
         (after (invoke (CallSaveEntities position entities)) p)
  = LoadedEntities entities None
  <-> entities = [].
Proof.
  rewrite invoke_after. cbn. split.
  - intros Heq. injection Heq as Heq. symmetry. exact Heq.
  - intros ->. reflexivity.
Qed.

(** X3: a piece of world data set on the no-I/O provider is what its getter
    returns next exactly when it is the value the getter returns anyway:
    the empty name, the spawn (0, 30, 0), time 0, a running time cycle,
    the Adventure game mode. *)
Theorem metadata_kept_iff_default p (name : string) (pos : BlockPos)
    (time : int64) (running : bool) (mode : gamemode.GameMode) :
  (result (invoke CallWorldName) (after (invoke (CallSetWorldName name)) p)
   = Name name <-> name = EmptyString) /\
  (result (invoke CallWorldSpawn) (after (invoke (CallSetWorldSpawn pos)) p)
   = Position pos <-> pos = mkBlockPos 0 30 0) /\
  (result (invoke CallLoadTime) (after (invoke (CallSaveTime time)) p)
   = Time time <-> time = 0) /\
  (result (invoke CallLoadTimeCycle)
          (after (invoke (CallSaveTimeCycle running)) p)
   = TimeCycle running <-> running = true) /\
  (result (invoke CallDefaultGameMode)
          (after (invoke (CallSetDefaultGameMode mode)) p)
   = Mode mode <-> mode = gamemode.Adventure).
Proof.
  rewrite !invoke_after. cbn.
  repeat split; intros Heq;
    solve [ injection Heq as Heq; symmetry; exact Heq
          | subst; reflexivity ].
Qed.

End Discarded.
